(** * HTTP client provider (pkg/infra/httpclient/httpclientprovider)

    A shallow embedding of [http_client_provider.go]: the provider
    constructor [New], the connection tagger [newConntrackRoundTripper],
    the HAR logging middleware [httpLoggerMiddleware] and the writer of
    the SDK's global timeout defaults, [setDefaultTimeoutOptions].

    Conventions.
    - Go's [int], [int64] and [time.Duration] are integers of 64 bits;
      they are carried as [Z] and every arithmetic result is wrapped
      into the signed 64-bit range by [wrap64].
    - [map[string]string] is a [gmap string string]; a lookup that Go
      writes [v, exists := m[k]] is [m !! k : option string].
    - Package-level variables live in a [World] that is threaded through
      the code by a small state monad.
    - A [*http.Transport] is an address into a store of transports, so
      that mutation in place and pointer identity can be stated. *)

From Stdlib Require Import ZArith List Lia Ascii String.
From stdpp Require Import base option strings gmap list.

Local Open Scope Z_scope.
Set Warnings "-register-all".

(** ** Machine integers and durations *)

Module Int64.

Definition modulus : Z := 2 ^ 64.
Definition half_modulus : Z := 2 ^ 63.
Definition min_signed : Z := - half_modulus.
Definition max_signed : Z := half_modulus - 1.

(** Two's complement reduction of an integer to the signed 64-bit range. *)
Definition wrap64 (z : Z) : Z :=
  (z + half_modulus) mod modulus - half_modulus.

Definition in_range (z : Z) : Prop := min_signed <= z <= max_signed.

Definition mul (a b : Z) : Z := wrap64 (a * b).

End Int64.

Module Time.

(** [time.Duration] is an [int64] count of nanoseconds. *)
Definition Duration : Type := Z.

Definition Nanosecond : Duration := 1.
Definition Microsecond : Duration := 1000 * Nanosecond.
Definition Millisecond : Duration := 1000 * Microsecond.
Definition Second : Duration := 1000 * Millisecond.

(** The conversion [time.Duration(n)] of an integer. *)
Definition of_int (n : Z) : Duration := Int64.wrap64 n.

(** The Go expression [time.Duration(n) * time.Second]. *)
Definition seconds (n : Z) : Duration := Int64.mul (of_int n) Second.

(** The largest number of whole seconds whose nanosecond count fits. *)
Definition max_seconds : Z := Int64.max_signed / Second.

End Time.

(** ** Configuration and the SDK's timeout options *)

(** The fields of [setting.Cfg] that this file reads. *)
Record Cfg := {
  BuildVersion : string;
  ResponseLimit : Z;
  SigV4AuthEnabled : bool;
  SigV4VerboseLogging : bool;
  DataProxyTimeout : Z;
  DataProxyDialTimeout : Z;
  DataProxyKeepAlive : Z;
  DataProxyTLSHandshakeTimeout : Z;
  DataProxyExpectContinueTimeout : Z;
  DataProxyMaxConnsPerHost : Z;
  DataProxyMaxIdleConns : Z;
  DataProxyIdleConnTimeout : Z
}.

(** [sdkhttpclient.TimeoutOptions]. *)
Record TimeoutOptions := {
  Timeout : Time.Duration;
  DialTimeout : Time.Duration;
  KeepAlive : Time.Duration;
  TLSHandshakeTimeout : Time.Duration;
  ExpectContinueTimeout : Time.Duration;
  MaxConnsPerHost : Z;
  MaxIdleConns : Z;
  MaxIdleConnsPerHost : Z;
  IdleConnTimeout : Time.Duration
}.

(** ** Package-level state *)

(** The package variable [sdkhttpclient.DefaultTimeoutOptions], together
    with a ghost counter of the assignments made to it. *)
Record World := {
  DefaultTimeoutOptions : TimeoutOptions;
  default_writes : nat
}.

(** Computations that read and write the package-level state. *)
Definition Run (A : Type) : Type := World -> A * World.

Definition ret {A} (a : A) : Run A := fun w => (a, w).

Definition bind {A B} (c : Run A) (k : A -> Run B) : Run B :=
  fun w => let (a, w') := c w in k a w'.

Definition assign_DefaultTimeoutOptions (v : TimeoutOptions) : Run unit :=
  fun w => (tt, {| DefaultTimeoutOptions := v;
                   default_writes := S (default_writes w) |}).

Definition read_DefaultTimeoutOptions : Run TimeoutOptions :=
  fun w => (DefaultTimeoutOptions w, w).

Declare Scope run_scope.
Delimit Scope run_scope with run.
Notation "'call' x := c 'in' k" := (bind c (fun x => k))
  (at level 10, x name, c at level 100, k at level 200) : run_scope.
Notation "c ';;;' k" := (bind c (fun _ => k))
  (at level 100, k at level 200, right associativity) : run_scope.

(** [setDefaultTimeoutOptions] overrides the default timeout options of
    the SDK with the values of the configuration. *)
Definition setDefaultTimeoutOptions (cfg : Cfg) : Run unit :=
  assign_DefaultTimeoutOptions {|
    Timeout := Time.seconds (DataProxyTimeout cfg);
    DialTimeout := Time.seconds (DataProxyDialTimeout cfg);
    KeepAlive := Time.seconds (DataProxyKeepAlive cfg);
    TLSHandshakeTimeout := Time.seconds (DataProxyTLSHandshakeTimeout cfg);
    ExpectContinueTimeout := Time.seconds (DataProxyExpectContinueTimeout cfg);
    MaxConnsPerHost := DataProxyMaxConnsPerHost cfg;
    MaxIdleConns := DataProxyMaxIdleConns cfg;
    MaxIdleConnsPerHost := DataProxyMaxIdleConns cfg;
    IdleConnTimeout := Time.seconds (DataProxyIdleConnTimeout cfg)
  |}.

(** ** net/http: transports behind pointers *)

Module Http.

(** A dial function value.  [NetDialer] is the method value
    [(&net.Dialer{Timeout: t, KeepAlive: k}).DialContext]; [ForeignDial]
    is a function defined elsewhere, identified by its code address;
    [NewDialContextFunc opts] is the closure returned by the call
    [conntrack.NewDialContextFunc(opts...)], kept with the options it was
    given, in the order of the call. *)
Inductive DialContextFunc :=
| NetDialer (timeout keepAlive : Time.Duration)
| ForeignDial (code : N)
| NewDialContextFunc (opts : list dialerOpt)
with dialerOpt :=
| DialWithName (name : string)
| DialWithDialContextFunc (parent : option DialContextFunc).

Record TLSConfig := {
  InsecureSkipVerify : bool;
  ServerName : string
}.

(** The fields of [http.Transport] that the provider layer deals with.
    A nil function or pointer field is [None]. *)
Record Transport := {
  Proxy : option N;
  DialContext : option DialContextFunc;
  TLSClientConfig : option TLSConfig;
  TLSHandshakeTimeout : Time.Duration;
  ExpectContinueTimeout : Time.Duration;
  IdleConnTimeout : Time.Duration;
  MaxConnsPerHost : Z;
  MaxIdleConns : Z;
  MaxIdleConnsPerHost : Z
}.

(** The assignment [t.DialContext = d]. *)
Definition set_DialContext (d : option DialContextFunc) (t : Transport)
  : Transport :=
  {| Proxy := Proxy t;
     DialContext := d;
     TLSClientConfig := TLSClientConfig t;
     TLSHandshakeTimeout := TLSHandshakeTimeout t;
     ExpectContinueTimeout := ExpectContinueTimeout t;
     IdleConnTimeout := IdleConnTimeout t;
     MaxConnsPerHost := MaxConnsPerHost t;
     MaxIdleConns := MaxIdleConns t;
     MaxIdleConnsPerHost := MaxIdleConnsPerHost t |}.

End Http.

(** A [*http.Transport] is an address; the transports that exist are the
    allocated addresses of the store.  The nil pointer is allocated in no
    store that the program can reach. *)
Definition TransportPtr : Type := N.
Abbreviation Store := (gmap N Http.Transport).

(** Reading a field through a pointer panics on an address that is not
    allocated; a panic is [None]. *)
Definition load (p : TransportPtr) (st : Store) : option Http.Transport :=
  st !! p.

Definition store_DialContext (p : TransportPtr)
    (d : option Http.DialContextFunc) (st : Store) : option Store :=
  match st !! p with
  | Some t => Some (<[p := Http.set_DialContext d t]> st)
  | None => None
  end.

(** [newConntrackRoundTripper] takes a transport and adds the conntrack
    dialer, so that outbound connections can be instrumented.  The
    argument [transport.DialContext] of the option is read before the
    assignment; the pointer that was passed in is returned. *)
Definition newConntrackRoundTripper (name : string)
    (transport : TransportPtr) (st : Store)
  : option (TransportPtr * Store) :=
  match load transport st with
  | None => None
  | Some t =>
    match
      store_DialContext transport
        (Some (Http.NewDialContextFunc
                 [Http.DialWithName name;
                  Http.DialWithDialContextFunc (Http.DialContext t)]))
        st
    with
    | Some st' => Some (transport, st')
    | None => None
    end
  end.

(** ** The SDK's options, round trippers and middlewares *)

(** [sdkhttpclient.Options]; the provider layer consults the labels. *)
Record Options := {
  Labels : gmap string string
}.

(** The two-result map index [v, exists := m[k]]: the zero value and
    [false] for a key that is not in the map. *)
Definition index_ok (m : gmap string string) (k : string) : string * bool :=
  match m !! k with
  | Some v => (v, true)
  | None => (EmptyString, false)
  end.

(** [httplogger.HTTPLogger], as the settings its builder calls fix: the
    plugin identifier and the wrapped round tripper given to
    [NewHTTPLogger], the enabled check installed by [WithEnabledCheck]
    and the output path installed by [WithPath].  A setting that was
    never installed is [None]: the logger then uses the package's own
    default for it. *)
Record HTTPLogger (RT : Type) := {
  pluginID : string;
  proxied : RT;
  enabledCheck : option (unit -> bool);
  harPath : option string
}.
Arguments pluginID {RT} _.
Arguments proxied {RT} _.
Arguments enabledCheck {RT} _.
Arguments harPath {RT} _.

Definition NewHTTPLogger {RT} (id : string) (next : RT) : HTTPLogger RT :=
  {| pluginID := id; proxied := next;
     enabledCheck := None; harPath := None |}.

Definition WithEnabledCheck {RT} (fn : unit -> bool) (hl : HTTPLogger RT)
  : HTTPLogger RT :=
  {| pluginID := pluginID hl; proxied := proxied hl;
     enabledCheck := Some fn; harPath := harPath hl |}.

Definition WithPath {RT} (path : string) (hl : HTTPLogger RT)
  : HTTPLogger RT :=
  {| pluginID := pluginID hl; proxied := proxied hl;
     enabledCheck := enabledCheck hl; harPath := Some path |}.

(** The values of the interface [http.RoundTripper] that occur here: a
    round tripper built elsewhere, identified by its address, or an HTTP
    logger around another round tripper. *)
Inductive RoundTripper :=
| BaseRoundTripper (addr : N)
| LoggerRoundTripper (hl : HTTPLogger RoundTripper).

(** The number of loggers wrapped around the innermost round tripper. *)
Fixpoint depth (rt : RoundTripper) : nat :=
  match rt with
  | BaseRoundTripper _ => O
  | LoggerRoundTripper hl => S (depth (proxied hl))
  end.

(** [sdkhttpclient.Middleware] with its name, as [NamedMiddlewareFunc]
    builds it. *)
Record Middleware := {
  MiddlewareName : string;
  CreateMiddleware : Options -> RoundTripper -> RoundTripper
}.

Definition NamedMiddlewareFunc (name : string)
    (fn : Options -> RoundTripper -> RoundTripper) : Middleware :=
  {| MiddlewareName := name; CreateMiddleware := fn |}.

(** [sdkhttpclient.ProviderOptions]: the middleware chain and the hook
    that is run on each transport the provider creates.  The hook has no
    result; it can only mutate the transport it is given, or panic. *)
Record ProviderOptions := {
  Middlewares : list Middleware;
  ConfigureTransport : Options -> TransportPtr -> Store -> option Store
}.

(** ** The HAR logging middleware *)

Definition httpLoggerMiddleware : Middleware :=
  NamedMiddlewareFunc "http-logger" (fun opts next =>
    let '(datasourceName, exists_) :=
      index_ok (Labels opts) "datasource_name" in
    if negb exists_ then next else
    let '(harLogEnabled, exists_) :=
      index_ok (Labels opts) "har_log_enabled" in
    if negb exists_ || negb (String.eqb harLogEnabled "true") then next else
    let hl :=
      WithEnabledCheck (fun _ => true) (NewHTTPLogger datasourceName next) in
    let '(harLogPath, exists_) := index_ok (Labels opts) "har_log_path" in
    let hl := if exists_ then WithPath harLogPath hl else hl in
    LoggerRoundTripper hl).

(** ** The provider constructor *)

(** A logger of [pkg/infra/log], as [log.New] names it. *)
Record Logger := { logger_name : string }.

Definition log_New (name : string) : Logger := {| logger_name := name |}.

(** A Go [error] value: [None] is nil, [Some msg] an error. *)
Definition error : Type := option string.

(** What [New] takes from other files and packages: the tracer type, the
    constructors of the middlewares it lists, the label sanitizer of
    [metricutil], and the function stored in the package variable
    [newProviderFunc], which is [sdkhttpclient.NewProvider] unless a
    test replaces it. *)
Class Imports := {
  Tracer : Type;
  Provider : Type;
  TracingMiddleware : Logger -> Tracer -> Middleware;
  DataSourceMetricsMiddleware : Middleware;
  SetUserAgentMiddleware : string -> Middleware;
  BasicAuthenticationMiddleware : Middleware;
  CustomHeadersMiddleware : Middleware;
  ResponseLimitMiddleware : Z -> Middleware;
  SigV4Middleware : bool -> Middleware;
  SanitizeLabelName : string -> string * error;
  newProviderFunc : ProviderOptions -> Run Provider
}.

Section Provider.

Context `{Imports}.

(** The slice [middlewares] that [New] builds before it touches the
    timeout defaults: seven fixed entries, and the SigV4 middleware
    appended when the configuration enables it. *)
Definition New_middlewares (cfg : Cfg) (tracer : Tracer) : list Middleware :=
  let logger := log_New "httpclient" in
  let userAgent := ("Grafana/" ++ BuildVersion cfg)%string in
  let middlewares := [
    TracingMiddleware logger tracer;
    DataSourceMetricsMiddleware;
    httpLoggerMiddleware;
    SetUserAgentMiddleware userAgent;
    BasicAuthenticationMiddleware;
    CustomHeadersMiddleware;
    ResponseLimitMiddleware (ResponseLimit cfg)
  ] in
  if SigV4AuthEnabled cfg
  then middlewares ++ [SigV4Middleware (SigV4VerboseLogging cfg)]
  else middlewares.

(** The function literal that [New] passes as [ConfigureTransport]. *)
Definition New_ConfigureTransport (opts : Options)
    (transport : TransportPtr) (st : Store) : option Store :=
  let '(datasourceName, exists_) :=
    index_ok (Labels opts) "datasource_name" in
  if negb exists_ then Some st else
  let '(datasourceLabelName, err) := SanitizeLabelName datasourceName in
  if bool_decide (err <> None) then Some st else
  match newConntrackRoundTripper datasourceLabelName transport st with
  | Some (_, st') => Some st'
  | None => None
  end.

(** [New] creates a new HTTP client provider with pre-configured
    middlewares. *)
Definition New (cfg : Cfg) (tracer : Tracer) : Run Provider :=
  (let middlewares := New_middlewares cfg tracer in
   setDefaultTimeoutOptions cfg ;;;
   newProviderFunc {|
     Middlewares := middlewares;
     ConfigureTransport := New_ConfigureTransport
   |})%run.

End Provider.

(** ** Label sanitization (pkg/infra/metrics/metricutil) *)

Module Metricutil.

Definition is_alphanumeric (c : ascii) : bool :=
  let n := N_of_ascii c in
  ((48 <=? n) && (n <=? 57) || (65 <=? n) && (n <=? 90)
   || (97 <=? n) && (n <=? 122))%N.

Section Rule.

(** What the rule does with a character that is not alphanumeric:
    [Some r] replaces it by [r], [None] removes it. *)
Variable replacement : ascii -> option ascii.

(** Whether a normalised text is a valid metric-label value. *)
Variable valid_label : string -> bool.

Definition sanitize_char (c : ascii) : option ascii :=
  if is_alphanumeric c then Some c else replacement c.

Fixpoint normalize (name : string) : string :=
  match name with
  | EmptyString => EmptyString
  | String c rest =>
    match sanitize_char c with
    | Some r => String r (normalize rest)
    | None => normalize rest
    end
  end.

(** Modelled from the spec: [metricutil.SanitizeLabelName], whose file
    is not among the sources.  The spec calls it the normalization of an
    arbitrary string into a value safe for use as a metrics label, in
    which non-alphanumeric characters are replaced or removed per the
    sanitization rule, and which fails on a label that cannot be
    sanitized into a valid metric-label value.  The rule for the
    characters and the validity of the outcome are the two parameters of
    this section. *)
Definition SanitizeLabelName (name : string) : string * error :=
  let out := normalize name in
  if valid_label out then (out, None)
  else (EmptyString, Some "invalid label name"%string).

(** Every character of the alphabet, and the check that what the rule
    writes for a character is a character it leaves as it is. *)
Definition alphabet : list ascii :=
  List.map (fun n => ascii_of_nat n) (seq 0 256).

Definition settled (c : ascii) : bool :=
  match sanitize_char c with
  | Some r =>
    match sanitize_char r with
    | Some r' => Ascii.eqb r r'
    | None => false
    end
  | None => true
  end.

Definition rule_is_stable : bool := forallb settled alphabet.

End Rule.

(** A rule of the kind the spec's example applies to ["My DB!"]: blanks
    become underscores, underscores stay, any other character that is
    not alphanumeric is dropped; an empty outcome is not a label. *)
Definition underscore_rule (c : ascii) : option ascii :=
  if (Ascii.eqb c " " || Ascii.eqb c "_")%char%bool
  then Some "_"%char else None.

Definition nonempty (s : string) : bool :=
  match s with EmptyString => false | String _ _ => true end.

End Metricutil.

(** ** Transports built from the default policy *)

(** Modelled from the spec: the SDK's construction of a transport, which
    is outside this package.  The spec says that the default timeout
    policy holds the timeout and pool parameters applied to every
    transport built thereafter, and that later changes do not affect
    what was already built: a built transport keeps the policy that was
    current when it was built. *)
Record BuiltTransport := {
  applied_policy : TimeoutOptions
}.

Definition buildTransport : Run BuiltTransport :=
  (call d := read_DefaultTimeoutOptions in
   ret {| applied_policy := d |})%run.

Definition request_timeout (bt : BuiltTransport) : Time.Duration :=
  Timeout (applied_policy bt).

(** The default policy that a run of the resolver leaves behind. *)
Definition policy_after (cfg : Cfg) (w : World) : TimeoutOptions :=
  DefaultTimeoutOptions (snd (setDefaultTimeoutOptions cfg w)).

(** One transport built before the resolver runs and one built after. *)
Definition build_around_resolver (cfg : Cfg)
  : Run (BuiltTransport * BuiltTransport) :=
  (call before := buildTransport in
   setDefaultTimeoutOptions cfg ;;;
   call after := buildTransport in
   ret (before, after))%run.

(** ** Activation of the logging middleware *)

(** The logging middleware is active when what it returns is not the
    round tripper it was given. *)
Definition activates (opts : Options) (next : RoundTripper) : Prop :=
  CreateMiddleware httpLoggerMiddleware opts next <> next.

Definition has_datasource_name (opts : Options) : Prop :=
  is_Some (Labels opts !! "datasource_name"%string).

Definition has_nonempty_datasource_name (opts : Options) : Prop :=
  exists name, Labels opts !! "datasource_name"%string = Some name
               /\ name <> EmptyString.

Definition har_log_enabled_is_true (opts : Options) : Prop :=
  Labels opts !! "har_log_enabled"%string = Some "true"%string.

(** ** A test double of the imports *)

Definition passthrough (name : string) : Middleware :=
  NamedMiddlewareFunc name (fun _ next => next).

(** The provider function of the double returns the options it was
    given, so that they can be inspected. *)
Definition recording_imports : Imports := {|
  Tracer := unit;
  Provider := ProviderOptions;
  TracingMiddleware := fun _ _ => passthrough "tracing";
  DataSourceMetricsMiddleware := passthrough "metrics";
  SetUserAgentMiddleware := fun _ => passthrough "user-agent";
  BasicAuthenticationMiddleware := passthrough "BasicAuth";
  CustomHeadersMiddleware := passthrough "CustomHeaders";
  ResponseLimitMiddleware := fun _ => passthrough "response-limit";
  SigV4Middleware := fun _ => passthrough "sigv4";
  SanitizeLabelName :=
    Metricutil.SanitizeLabelName Metricutil.underscore_rule
                                 Metricutil.nonempty;
  newProviderFunc := fun po => ret po
|}.

(** A provider function that reports the state it is invoked in: the
    default policy it finds and the number of writes made to it. *)
Definition observing_imports : Imports := {|
  Tracer := unit;
  Provider := TimeoutOptions * nat;
  TracingMiddleware := fun _ _ => passthrough "tracing";
  DataSourceMetricsMiddleware := passthrough "metrics";
  SetUserAgentMiddleware := fun _ => passthrough "user-agent";
  BasicAuthenticationMiddleware := passthrough "BasicAuth";
  CustomHeadersMiddleware := passthrough "CustomHeaders";
  ResponseLimitMiddleware := fun _ => passthrough "response-limit";
  SigV4Middleware := fun _ => passthrough "sigv4";
  SanitizeLabelName :=
    Metricutil.SanitizeLabelName Metricutil.underscore_rule
                                 Metricutil.nonempty;
  newProviderFunc := fun _ w => ((DefaultTimeoutOptions w, default_writes w), w)
|}.

Definition sample_cfg : Cfg := {|
  BuildVersion := "10.0.0";
  ResponseLimit := 0;
  SigV4AuthEnabled := true;
  SigV4VerboseLogging := false;
  DataProxyTimeout := 30;
  DataProxyDialTimeout := 10;
  DataProxyKeepAlive := 30;
  DataProxyTLSHandshakeTimeout := 10;
  DataProxyExpectContinueTimeout := 1;
  DataProxyMaxConnsPerHost := 0;
  DataProxyMaxIdleConns := 100;
  DataProxyIdleConnTimeout := 90
|}.

Definition zero_policy : TimeoutOptions := {|
  Timeout := 0; DialTimeout := 0; KeepAlive := 0;
  TLSHandshakeTimeout := 0; ExpectContinueTimeout := 0;
  MaxConnsPerHost := 0; MaxIdleConns := 0; MaxIdleConnsPerHost := 0;
  IdleConnTimeout := 0
|}.

Definition initial_world : World :=
  {| DefaultTimeoutOptions := zero_policy; default_writes := 0 |}.

Definition sample_transport : Http.Transport := {|
  Http.Proxy := Some 1%N;
  Http.DialContext := Some (Http.NetDialer (10 * Time.Second) (30 * Time.Second));
  Http.TLSClientConfig :=
    Some {| Http.InsecureSkipVerify := false; Http.ServerName := "db" |};
  Http.TLSHandshakeTimeout := 10 * Time.Second;
  Http.ExpectContinueTimeout := Time.Second;
  Http.IdleConnTimeout := 90 * Time.Second;
  Http.MaxConnsPerHost := 0;
  Http.MaxIdleConns := 100;
  Http.MaxIdleConnsPerHost := 100
|}.

Definition sample_store : Store := {[ 7%N := sample_transport ]}.

Definition labels_of (kvs : list (string * string)) : Options :=
  {| Labels := list_to_map kvs |}.

Definition har_options : Options :=
  labels_of [("datasource_name", "My DB!");
             ("har_log_enabled", "true");
             ("har_log_path", "/tmp/my-db.har")]%string.

Definition empty_name_options : Options :=
  labels_of [("datasource_name", ""); ("har_log_enabled", "true")]%string.

Definition unlabelled_options : Options := labels_of [].

Definition unusable_name_options : Options :=
  labels_of [("datasource_name", "!?")]%string.

(** ** Observations and samples for the further properties *)

(** The round tripper at the bottom of a stack of loggers. *)
Fixpoint innermost (rt : RoundTripper) : N :=
  match rt with
  | BaseRoundTripper a => a
  | LoggerRoundTripper hl => innermost (proxied hl)
  end.

(** Two transports that differ at most in their dial function. *)
Definition same_but_dial (t t' : Http.Transport) : Prop :=
  Http.set_DialContext (Http.DialContext t) t' = t.

(** The dial function that the tagger installs over [parent]. *)
Definition tagged_dial (name : string)
    (parent : option Http.DialContextFunc) : option Http.DialContextFunc :=
  Some (Http.NewDialContextFunc
          [Http.DialWithName name; Http.DialWithDialContextFunc parent]).

(** Every seconds-denominated field of the configuration is a count of
    seconds whose nanosecond count fits in 64 bits. *)
Definition seconds_fit (cfg : Cfg) : Prop :=
  - Time.max_seconds <= DataProxyTimeout cfg <= Time.max_seconds
  /\ - Time.max_seconds <= DataProxyDialTimeout cfg <= Time.max_seconds
  /\ - Time.max_seconds <= DataProxyKeepAlive cfg <= Time.max_seconds
  /\ - Time.max_seconds <= DataProxyTLSHandshakeTimeout cfg
     <= Time.max_seconds
  /\ - Time.max_seconds <= DataProxyExpectContinueTimeout cfg
     <= Time.max_seconds
  /\ - Time.max_seconds <= DataProxyIdleConnTimeout cfg <= Time.max_seconds.

(** The largest count of seconds whose nanosecond count is below 2^64. *)
Definition max_wrapped_seconds : Z := (Int64.modulus - 1) / Time.Second.

(** The two options agree on the three labels the logger reads. *)
Definition same_har_labels (o1 o2 : Options) : Prop :=
  Labels o1 !! "datasource_name"%string = Labels o2 !! "datasource_name"%string
  /\ Labels o1 !! "har_log_enabled"%string
     = Labels o2 !! "har_log_enabled"%string
  /\ Labels o1 !! "har_log_path"%string = Labels o2 !! "har_log_path"%string.

Definition overflowing_cfg : Cfg := {|
  BuildVersion := "10.0.0";
  ResponseLimit := 0;
  SigV4AuthEnabled := false;
  SigV4VerboseLogging := false;
  DataProxyTimeout := 9223372037;
  DataProxyDialTimeout := 10;
  DataProxyKeepAlive := 30;
  DataProxyTLSHandshakeTimeout := 10;
  DataProxyExpectContinueTimeout := 1;
  DataProxyMaxConnsPerHost := 0;
  DataProxyMaxIdleConns := 100;
  DataProxyIdleConnTimeout := 90
|}.

Definition har_options_with_team : Options :=
  {| Labels := <["team" := "storage"]> (Labels har_options) |}%string.

(** Two providers built one after the other. *)
Definition two_builds `{Imports} (cfg1 cfg2 : Cfg) (tr1 tr2 : Tracer)
  : Run (Provider * Provider) :=
  (call p1 := New cfg1 tr1 in
   call p2 := New cfg2 tr2 in
   ret (p1, p2))%run.

(** Between the states [w] and [w'] the default policy was written
    exactly once. *)
Definition written_once (w w' : World) : Prop :=
  default_writes w' = S (default_writes w).

(** A rule that turns blanks into hyphens and drops hyphens. *)
Definition hyphen_rule (c : ascii) : option ascii :=
  if Ascii.eqb c " " then Some "-"%char else None.

Definition tagged_store : Store :=
  <[7%N := Http.set_DialContext
             (tagged_dial "My_DB" (Http.DialContext sample_transport))
             sample_transport]> sample_store.

(** * Properties *)

(** ** Integers and durations *)

Lemma wrap64_in_range (z : Z) : Int64.in_range (Int64.wrap64 z).
Proof.
  unfold Int64.in_range, Int64.wrap64, Int64.min_signed, Int64.max_signed.
  assert (Hm : 0 < Int64.modulus) by reflexivity.
  pose proof (Z.mod_pos_bound (z + Int64.half_modulus) _ Hm) as Hb.
  assert (Int64.modulus = 2 * Int64.half_modulus) by reflexivity.
  lia.
Qed.

Lemma wrap64_id (z : Z) : Int64.in_range z -> Int64.wrap64 z = z.
Proof.
  unfold Int64.in_range, Int64.wrap64, Int64.min_signed, Int64.max_signed.
  intros Hz.
  assert (Int64.modulus = 2 * Int64.half_modulus) by reflexivity.
  rewrite Z.mod_small by lia. lia.
Qed.

Lemma Second_nanoseconds : Time.Second = 1000000000.
Proof. reflexivity. Qed.

Lemma max_seconds_value : Time.max_seconds = 9223372036.
Proof. reflexivity. Qed.

(** Without overflow the conversion is the plain product: a count of
    seconds up to [max_seconds] in absolute value becomes that many
    times 10^9 nanoseconds. *)
Lemma seconds_exact (n : Z) :
  - Time.max_seconds <= n <= Time.max_seconds ->
  Time.seconds n = n * Time.Second.
Proof.
  rewrite max_seconds_value, Second_nanoseconds. intros Hn.
  unfold Time.seconds, Int64.mul, Time.of_int.
  rewrite Second_nanoseconds.
  assert (Hh : Int64.half_modulus = 9223372036854775808) by reflexivity.
  rewrite (wrap64_id n).
  - apply wrap64_id.
    unfold Int64.in_range, Int64.min_signed, Int64.max_signed. lia.
  - unfold Int64.in_range, Int64.min_signed, Int64.max_signed. lia.
Qed.

(** Beyond that range the product wraps around. *)
Example seconds_overflow : Time.seconds 9223372037 = -9223372036709551616.
Proof. reflexivity. Qed.

(** ** Map indexing *)

Lemma index_ok_Some (m : gmap string string) (k v : string) :
  m !! k = Some v -> index_ok m k = (v, true).
Proof. unfold index_ok. intros ->. reflexivity. Qed.

Lemma index_ok_None (m : gmap string string) (k : string) :
  m !! k = None -> index_ok m k = (EmptyString, false).
Proof. unfold index_ok. intros ->. reflexivity. Qed.

(** ** The logging middleware, case by case *)

Lemma depth_wrapped (hl : HTTPLogger RoundTripper) :
  depth (LoggerRoundTripper hl) = S (depth (proxied hl)).
Proof. reflexivity. Qed.

(** A logger is never the round tripper it wraps. *)
Lemma logger_not_proxied (hl : HTTPLogger RoundTripper) :
  LoggerRoundTripper hl <> proxied hl.
Proof.
  intros Heq. apply (f_equal depth) in Heq.
  rewrite depth_wrapped in Heq. lia.
Qed.

(** The logger that the middleware installs when it is active. *)
Lemma httpLogger_active (opts : Options) (next : RoundTripper)
    (name : string) :
  Labels opts !! "datasource_name"%string = Some name ->
  Labels opts !! "har_log_enabled"%string = Some "true"%string ->
  CreateMiddleware httpLoggerMiddleware opts next =
  LoggerRoundTripper
    {| pluginID := name; proxied := next;
       enabledCheck := Some (fun _ => true);
       harPath := Labels opts !! "har_log_path"%string |}.
Proof.
  intros Hname Hflag. simpl.
  rewrite (index_ok_Some _ _ _ Hname), (index_ok_Some _ _ _ Hflag). simpl.
  unfold index_ok.
  destruct (Labels opts !! "har_log_path"%string); reflexivity.
Qed.

Lemma httpLogger_no_name (opts : Options) (next : RoundTripper) :
  Labels opts !! "datasource_name"%string = None ->
  CreateMiddleware httpLoggerMiddleware opts next = next.
Proof.
  intros Hname. simpl. rewrite (index_ok_None _ _ Hname). reflexivity.
Qed.

Lemma httpLogger_flag_off (opts : Options) (next : RoundTripper) :
  Labels opts !! "har_log_enabled"%string <> Some "true"%string ->
  CreateMiddleware httpLoggerMiddleware opts next = next.
Proof.
  intros Hflag. simpl. unfold index_ok at 1.
  destruct (Labels opts !! "datasource_name"%string); [|reflexivity].
  simpl. unfold index_ok at 1.
  destruct (Labels opts !! "har_log_enabled"%string) as [flag|] eqn:E;
    [|reflexivity].
  destruct (String.eqb flag "true") eqn:Eflag; [|reflexivity].
  apply String.eqb_eq in Eflag. subst flag. congruence.
Qed.

Lemma flag_cases (opts : Options) :
  har_log_enabled_is_true opts \/ ~ har_log_enabled_is_true opts.
Proof.
  unfold har_log_enabled_is_true.
  destruct (decide (Labels opts !! "har_log_enabled"%string
                    = Some "true"%string)); [left|right]; assumption.
Qed.

Lemma activates_inv (opts : Options) (next : RoundTripper) :
  activates opts next ->
  has_datasource_name opts /\ har_log_enabled_is_true opts.
Proof.
  unfold activates, has_datasource_name. intros Hact. split.
  - destruct (Labels opts !! "datasource_name"%string) eqn:E; [eauto|].
    exfalso. apply Hact. apply httpLogger_no_name. assumption.
  - destruct (flag_cases opts) as [Hon|Hoff]; [assumption|].
    exfalso. apply Hact. apply httpLogger_flag_off. assumption.
Qed.

Lemma activates_intro (opts : Options) (next : RoundTripper) :
  has_datasource_name opts -> har_log_enabled_is_true opts ->
  activates opts next.
Proof.
  unfold activates, has_datasource_name, har_log_enabled_is_true.
  intros [name Hname] Hflag.
  rewrite (httpLogger_active opts next name Hname Hflag).
  apply (logger_not_proxied
           {| pluginID := name; proxied := next;
              enabledCheck := Some (fun _ => true);
              harPath := Labels opts !! "har_log_path"%string |}).
Qed.

(** C2, as amended.  The logging middleware activates exactly when the
    label map has the key [datasource_name], whatever its value (the
    empty string included), and the label [har_log_enabled] is the exact
    string ["true"]; in every other case it returns the next round
    tripper unchanged. *)
Theorem httpLogger_activation (opts : Options) (next : RoundTripper) :
  (activates opts next <->
     has_datasource_name opts /\ har_log_enabled_is_true opts)
  /\ (CreateMiddleware httpLoggerMiddleware opts next = next <->
        ~ (has_datasource_name opts /\ har_log_enabled_is_true opts)).
Proof.
  split; split.
  - apply activates_inv.
  - intros [Hname Hflag]. apply activates_intro; assumption.
  - intros Hsame Hcond.
    destruct Hcond as [Hname Hflag].
    apply (activates_intro opts next Hname Hflag). exact Hsame.
  - intros Hcond.
    destruct (Labels opts !! "datasource_name"%string) as [name|] eqn:E.
    + destruct (flag_cases opts) as [Hon|Hoff].
      * exfalso. apply Hcond. split; [|assumption].
        unfold has_datasource_name. rewrite E. eauto.
      * apply httpLogger_flag_off. assumption.
    + apply httpLogger_no_name. assumption.
Qed.

(** C2, as stated, fails: with [datasource_name] present but empty and
    [har_log_enabled] equal to ["true"] the middleware activates, so a
    non-empty target identifier is not necessary for activation. *)
Lemma httpLogger_activates_on_empty_name :
  ~ (forall opts next,
       activates opts next ->
       has_nonempty_datasource_name opts /\ har_log_enabled_is_true opts).
Proof.
  intros Hclaim.
  assert (Hact : activates empty_name_options (BaseRoundTripper 0)).
  { unfold activates. vm_compute. discriminate. }
  destruct (Hclaim empty_name_options (BaseRoundTripper 0) Hact)
    as [[name [Hname Hne]] _].
  vm_compute in Hname. congruence.
Qed.

(** C7.  Whenever the logging middleware activates, what it returns is
    an HTTP logger around the next round tripper whose enabled check is
    installed and answers [true] on every call; its output path is the
    value of the label [har_log_path] when that label is present, and is
    left at the logger's default when the label is absent. *)
Theorem httpLogger_always_enabled_and_path (opts : Options)
    (next : RoundTripper) :
  activates opts next ->
  exists hl,
    CreateMiddleware httpLoggerMiddleware opts next = LoggerRoundTripper hl
    /\ proxied hl = next
    /\ Labels opts !! "datasource_name"%string = Some (pluginID hl)
    /\ (exists check, enabledCheck hl = Some check
                      /\ forall u, check u = true)
    /\ harPath hl = Labels opts !! "har_log_path"%string.
Proof.
  intros Hact. apply activates_inv in Hact as [[name Hname] Hflag].
  eexists. split; [apply (httpLogger_active opts next name Hname Hflag)|].
  simpl. repeat split; [assumption|]. eauto.
Qed.

Lemma httpLogger_always_enabled_and_path_witness :
  activates har_options (BaseRoundTripper 0)
  /\ exists hl,
       CreateMiddleware httpLoggerMiddleware har_options (BaseRoundTripper 0)
         = LoggerRoundTripper hl
       /\ proxied hl = BaseRoundTripper 0
       /\ Labels har_options !! "datasource_name"%string
          = Some (pluginID hl)
       /\ (exists check, enabledCheck hl = Some check
                         /\ forall u, check u = true)
       /\ harPath hl = Labels har_options !! "har_log_path"%string.
Proof.
  assert (Hact : activates har_options (BaseRoundTripper 0)).
  { unfold activates. vm_compute. discriminate. }
  split; [exact Hact|].
  exact (httpLogger_always_enabled_and_path
           har_options (BaseRoundTripper 0) Hact).
Defined.

(** With the path label absent the logger keeps its default location. *)
Example httpLogger_default_path :
  CreateMiddleware httpLoggerMiddleware
    (labels_of [("datasource_name", "My DB!"); ("har_log_enabled", "true")]%string)
    (BaseRoundTripper 0)
  = LoggerRoundTripper
      {| pluginID := "My DB!"; proxied := BaseRoundTripper 0;
         enabledCheck := Some (fun _ => true); harPath := None |}.
Proof. reflexivity. Qed.

Example httpLogger_flag_false :
  CreateMiddleware httpLoggerMiddleware
    (labels_of [("datasource_name", "My DB!"); ("har_log_enabled", "false")]%string)
    (BaseRoundTripper 0)
  = BaseRoundTripper 0.
Proof. reflexivity. Qed.

(** ** The timeout defaults *)

Lemma setDefaultTimeoutOptions_run (cfg : Cfg) (w : World) :
  setDefaultTimeoutOptions cfg w =
  (tt, {| DefaultTimeoutOptions := {|
            Timeout := Time.seconds (DataProxyTimeout cfg);
            DialTimeout := Time.seconds (DataProxyDialTimeout cfg);
            KeepAlive := Time.seconds (DataProxyKeepAlive cfg);
            TLSHandshakeTimeout :=
              Time.seconds (DataProxyTLSHandshakeTimeout cfg);
            ExpectContinueTimeout :=
              Time.seconds (DataProxyExpectContinueTimeout cfg);
            MaxConnsPerHost := DataProxyMaxConnsPerHost cfg;
            MaxIdleConns := DataProxyMaxIdleConns cfg;
            MaxIdleConnsPerHost := DataProxyMaxIdleConns cfg;
            IdleConnTimeout := Time.seconds (DataProxyIdleConnTimeout cfg)
          |};
          default_writes := S (default_writes w) |}).
Proof. reflexivity. Qed.





(** The scenario of the spec, run from a world whose defaults are zero. *)
Example thirty_second_timeout :
  request_timeout (fst (fst (build_around_resolver sample_cfg initial_world)))
  = 0
  /\ request_timeout
       (snd (fst (build_around_resolver sample_cfg initial_world)))
     = 30000000000.
Proof. split; reflexivity. Qed.

(** C10.  After every run of the resolver the per-host idle limit of the
    default policy equals the overall idle limit, both being the single
    field [DataProxyMaxIdleConns] of the configuration. *)
Theorem setDefaultTimeoutOptions_idle_limits (cfg : Cfg) (w : World) :
  MaxIdleConnsPerHost (policy_after cfg w) = MaxIdleConns (policy_after cfg w)
  /\ MaxIdleConnsPerHost (policy_after cfg w) = DataProxyMaxIdleConns cfg
  /\ MaxIdleConns (policy_after cfg w) = DataProxyMaxIdleConns cfg.
Proof.
  unfold policy_after. rewrite setDefaultTimeoutOptions_run. cbn.
  repeat split; reflexivity.
Qed.

(** ** The connection tagger *)

Lemma newConntrackRoundTripper_run (name : string) (p : TransportPtr)
    (st : Store) (t : Http.Transport) :
  st !! p = Some t ->
  newConntrackRoundTripper name p st =
  Some (p, <[p := Http.set_DialContext
                    (Some (Http.NewDialContextFunc
                             [Http.DialWithName name;
                              Http.DialWithDialContextFunc
                                (Http.DialContext t)])) t]> st).
Proof.
  intros Hp. unfold newConntrackRoundTripper, load, store_DialContext.
  rewrite Hp. reflexivity.
Qed.

(** On a nil or dangling pointer the first field access panics. *)
Lemma newConntrackRoundTripper_panics (name : string) (p : TransportPtr)
    (st : Store) :
  st !! p = None -> newConntrackRoundTripper name p st = None.
Proof.
  intros Hp. unfold newConntrackRoundTripper, load. rewrite Hp. reflexivity.
Qed.

(** What the tagger installs on a transport whose dial function is nil:
    a conntrack dial function that was handed nil as the function to
    dial with.  What that function does when it is called is decided in
    the conntrack package. *)
Lemma newConntrackRoundTripper_nil_dial (name : string) (p : TransportPtr)
    (st st' : Store) (t : Http.Transport) :
  st !! p = Some t -> Http.DialContext t = None ->
  newConntrackRoundTripper name p st = Some (p, st') ->
  Http.DialContext <$> st' !! p =
  Some (Some (Http.NewDialContextFunc
                [Http.DialWithName name; Http.DialWithDialContextFunc None])).
Proof.
  intros Hp Hnil Hrun.
  rewrite (newConntrackRoundTripper_run name p st t Hp) in Hrun.
  injection Hrun as <-. rewrite lookup_insert_eq. simpl.
  rewrite Hnil. reflexivity.
Qed.

(** C5.  For a transport [t] at address [p], [newConntrackRoundTripper]
    returns the pointer [p] it was given and a store in which the
    transport at [p] has the conntrack dial function as its
    [DialContext] and every other field as in [t]; no other address of
    the store changes. *)
Theorem newConntrackRoundTripper_frame (name : string) (p : TransportPtr)
    (st : Store) (t : Http.Transport) :
  st !! p = Some t ->
  exists st' t',
    newConntrackRoundTripper name p st = Some (p, st')
    /\ st' !! p = Some t'
    /\ Http.DialContext t' =
       Some (Http.NewDialContextFunc
               [Http.DialWithName name;
                Http.DialWithDialContextFunc (Http.DialContext t)])
    /\ Http.Proxy t' = Http.Proxy t
    /\ Http.TLSClientConfig t' = Http.TLSClientConfig t
    /\ Http.TLSHandshakeTimeout t' = Http.TLSHandshakeTimeout t
    /\ Http.ExpectContinueTimeout t' = Http.ExpectContinueTimeout t
    /\ Http.IdleConnTimeout t' = Http.IdleConnTimeout t
    /\ Http.MaxConnsPerHost t' = Http.MaxConnsPerHost t
    /\ Http.MaxIdleConns t' = Http.MaxIdleConns t
    /\ Http.MaxIdleConnsPerHost t' = Http.MaxIdleConnsPerHost t
    /\ (forall q, q <> p -> st' !! q = st !! q).
Proof.
  intros Hp. do 2 eexists.
  split; [apply (newConntrackRoundTripper_run name p st t Hp)|].
  split; [apply lookup_insert_eq|].
  simpl. repeat split.
  intros q Hq. apply lookup_insert_ne. congruence.
Qed.

Lemma newConntrackRoundTripper_frame_witness :
  sample_store !! 7%N = Some sample_transport
  /\ exists st' t',
       newConntrackRoundTripper "My_DB" 7%N sample_store = Some (7%N, st')
       /\ st' !! 7%N = Some t'
       /\ Http.DialContext t' =
          Some (Http.NewDialContextFunc
                  [Http.DialWithName "My_DB";
                   Http.DialWithDialContextFunc
                     (Http.DialContext sample_transport)])
       /\ Http.Proxy t' = Http.Proxy sample_transport
       /\ Http.TLSClientConfig t' = Http.TLSClientConfig sample_transport
       /\ Http.TLSHandshakeTimeout t'
          = Http.TLSHandshakeTimeout sample_transport
       /\ Http.ExpectContinueTimeout t'
          = Http.ExpectContinueTimeout sample_transport
       /\ Http.IdleConnTimeout t' = Http.IdleConnTimeout sample_transport
       /\ Http.MaxConnsPerHost t' = Http.MaxConnsPerHost sample_transport
       /\ Http.MaxIdleConns t' = Http.MaxIdleConns sample_transport
       /\ Http.MaxIdleConnsPerHost t'
          = Http.MaxIdleConnsPerHost sample_transport
       /\ (forall q, q <> 7%N -> st' !! q = sample_store !! q).
Proof.
  assert (Hp : sample_store !! 7%N = Some sample_transport) by reflexivity.
  split; [exact Hp|].
  exact (newConntrackRoundTripper_frame "My_DB" 7%N sample_store
           sample_transport Hp).
Defined.

(** ** The provider constructor *)

Section ProviderFacts.

Context `{Imports}.

(** [New] is the resolver followed by the provider function, which is
    handed the middleware slice and the transport hook. *)
Lemma New_run (cfg : Cfg) (tracer : Tracer) (w : World) :
  New cfg tracer w =
  newProviderFunc
    {| Middlewares := New_middlewares cfg tracer;
       ConfigureTransport := New_ConfigureTransport |}
    (snd (setDefaultTimeoutOptions cfg w)).
Proof.
  unfold New, bind. rewrite setDefaultTimeoutOptions_run. reflexivity.
Qed.

Lemma New_middlewares_eq (cfg : Cfg) (tracer : Tracer) :
  New_middlewares cfg tracer =
  [ TracingMiddleware (log_New "httpclient") tracer;
    DataSourceMetricsMiddleware;
    httpLoggerMiddleware;
    SetUserAgentMiddleware ("Grafana/" ++ BuildVersion cfg)%string;
    BasicAuthenticationMiddleware;
    CustomHeadersMiddleware;
    ResponseLimitMiddleware (ResponseLimit cfg) ]
  ++ (if SigV4AuthEnabled cfg
      then [SigV4Middleware (SigV4VerboseLogging cfg)] else []).
Proof.
  unfold New_middlewares. destruct (SigV4AuthEnabled cfg); reflexivity.
Qed.

(** C1.  [New] hands the provider function one middleware list, the same
    in whatever state it runs: tracing, datasource metrics, the HTTP
    logger, user agent, basic authentication, custom headers and the
    response limit, in that order, followed by the SigV4 middleware as
    the eighth and last entry exactly when [SigV4AuthEnabled] is set.
    Two builds from the same inputs therefore list the same names. *)
Theorem New_middleware_order (cfg : Cfg) (tracer : Tracer) :
  exists mws,
    (forall w, New cfg tracer w =
               newProviderFunc
                 {| Middlewares := mws;
                    ConfigureTransport := New_ConfigureTransport |}
                 (snd (setDefaultTimeoutOptions cfg w)))
    /\ firstn 7 mws =
       [ TracingMiddleware (log_New "httpclient") tracer;
         DataSourceMetricsMiddleware;
         httpLoggerMiddleware;
         SetUserAgentMiddleware ("Grafana/" ++ BuildVersion cfg)%string;
         BasicAuthenticationMiddleware;
         CustomHeadersMiddleware;
         ResponseLimitMiddleware (ResponseLimit cfg) ]
    /\ skipn 7 mws =
       (if SigV4AuthEnabled cfg
        then [SigV4Middleware (SigV4VerboseLogging cfg)] else [])
    /\ (length mws = 8%nat <-> SigV4AuthEnabled cfg = true)
    /\ (length mws = 7%nat <-> SigV4AuthEnabled cfg = false)
    /\ (last (MiddlewareName <$> mws) =
        Some (if SigV4AuthEnabled cfg
              then MiddlewareName (SigV4Middleware (SigV4VerboseLogging cfg))
              else MiddlewareName
                     (ResponseLimitMiddleware (ResponseLimit cfg))))
    /\ (MiddlewareName <$> mws) !! 2%nat = Some "http-logger"%string.
Proof.
  exists (New_middlewares cfg tracer).
  split; [intros w; apply New_run|].
  rewrite New_middlewares_eq.
  destruct (SigV4AuthEnabled cfg); simpl;
    repeat split; try reflexivity; discriminate.
Qed.

(** C6, as amended.  Within each call of [New] the resolver runs once,
    and the provider function of that call is invoked in the state the
    resolver leaves: the global default policy already holds the values
    of [cfg], and exactly one write to it has happened since that call
    of [New] was entered. *)
Theorem New_resolver_before_provider (cfg : Cfg) (tracer : Tracer)
    (w : World) :
  exists w',
    setDefaultTimeoutOptions cfg w = (tt, w')
    /\ New cfg tracer w =
       newProviderFunc
         {| Middlewares := New_middlewares cfg tracer;
            ConfigureTransport := New_ConfigureTransport |} w'
    /\ default_writes w' = S (default_writes w)
    /\ DefaultTimeoutOptions w' = policy_after cfg w
    /\ Timeout (DefaultTimeoutOptions w')
       = Time.seconds (DataProxyTimeout cfg).
Proof.
  exists (snd (setDefaultTimeoutOptions cfg w)).
  split; [rewrite setDefaultTimeoutOptions_run; reflexivity|].
  split; [apply New_run|].
  rewrite setDefaultTimeoutOptions_run. repeat split.
Qed.

(** C4.  When the label [datasource_name] is absent, or the sanitizer
    returns an error for it, the transport hook returns normally and
    leaves the store of transports as it found it: the transport is not
    modified, and the error goes no further. *)
Theorem ConfigureTransport_noop (opts : Options) (p : TransportPtr)
    (st : Store) :
  Labels opts !! "datasource_name"%string = None
  \/ (exists name, Labels opts !! "datasource_name"%string = Some name
                   /\ snd (SanitizeLabelName name) <> None) ->
  New_ConfigureTransport opts p st = Some st.
Proof.
  unfold New_ConfigureTransport.
  intros [Habsent | [name [Hname Herr]]].
  - rewrite (index_ok_None _ _ Habsent). reflexivity.
  - rewrite (index_ok_Some _ _ _ Hname). simpl.
    destruct (SanitizeLabelName name) as [label err]. simpl in Herr.
    rewrite bool_decide_eq_true_2 by assumption. reflexivity.
Qed.

(** With the label present and sanitized, the hook tags the transport. *)
Lemma ConfigureTransport_tags (opts : Options) (p : TransportPtr)
    (st : Store) (name label : string) :
  Labels opts !! "datasource_name"%string = Some name ->
  SanitizeLabelName name = (label, None) ->
  New_ConfigureTransport opts p st =
  snd <$> newConntrackRoundTripper label p st.
Proof.
  intros Hname Hlabel. unfold New_ConfigureTransport.
  rewrite (index_ok_Some _ _ _ Hname). simpl. rewrite Hlabel.
  rewrite bool_decide_eq_false_2 by (intros Hne; apply Hne; reflexivity).
  destruct (newConntrackRoundTripper label p st) as [[q st']|]; reflexivity.
Qed.

End ProviderFacts.

Lemma ConfigureTransport_noop_witness :
  (Labels unusable_name_options !! "datasource_name"%string = None
   \/ (exists name,
         Labels unusable_name_options !! "datasource_name"%string = Some name
         /\ snd (SanitizeLabelName (Imports := recording_imports) name)
            <> None))
  /\ New_ConfigureTransport (H := recording_imports)
       unusable_name_options 7%N sample_store = Some sample_store.
Proof.
  assert (Herr :
    Labels unusable_name_options !! "datasource_name"%string = None
    \/ (exists name,
          Labels unusable_name_options !! "datasource_name"%string = Some name
          /\ snd (SanitizeLabelName (Imports := recording_imports) name)
             <> None)).
  { right. exists "!?"%string. split; [reflexivity|]. vm_compute. discriminate. }
  split; [exact Herr|].
  exact (ConfigureTransport_noop (H := recording_imports)
           unusable_name_options 7%N sample_store Herr).
Defined.

(** The hook on options without the label, and on the spec's example. *)
Example ConfigureTransport_unlabelled :
  New_ConfigureTransport (H := recording_imports)
    unlabelled_options 7%N sample_store = Some sample_store.
Proof. reflexivity. Qed.

Example ConfigureTransport_my_db :
  Http.DialContext <$>
    (New_ConfigureTransport (H := recording_imports)
       har_options 7%N sample_store ≫= (.!! 7%N))
  = Some (Some (Http.NewDialContextFunc
                  [Http.DialWithName "My_DB";
                   Http.DialWithDialContextFunc
                     (Http.DialContext sample_transport)])).
Proof. reflexivity. Qed.

(** The names of the middlewares that a test double of the imports
    records, with and without request signing. *)
Example New_names_with_sigv4 :
  MiddlewareName <$>
    Middlewares (fst (New (H := recording_imports) sample_cfg tt initial_world))
  = ["tracing"; "metrics"; "http-logger"; "user-agent"; "BasicAuth";
     "CustomHeaders"; "response-limit"; "sigv4"]%string.
Proof. reflexivity. Qed.

(** A provider function that looks at the defaults finds thirty seconds
    and one write. *)
Example New_provider_observes_defaults :
  (fun r => (Timeout (fst r), snd r))
    (fst (New (H := observing_imports) sample_cfg tt initial_world))
  = (30000000000, 1%nat).
Proof. reflexivity. Qed.

(** C6, as stated, fails: nothing keeps the resolver to one run.  When
    two providers are built one after the other the default policy is
    written twice, the second time after the first provider exists. *)
Lemma resolver_runs_again_on_second_build :
  ~ (forall cfg1 cfg2 w,
       written_once w
         (snd (two_builds (H := observing_imports) cfg1 cfg2 tt tt w))).
Proof.
  intros Hclaim.
  specialize (Hclaim sample_cfg overflowing_cfg initial_world).
  vm_compute in Hclaim. discriminate.
Qed.

(** What the two provider functions find: the first is invoked after one
    write with a timeout of thirty seconds, the second after two writes
    with the overflowed timeout of the second configuration. *)
Example two_builds_observed :
  (fun r => ((Timeout (fst (fst r)), snd (fst r)),
             (Timeout (fst (snd r)), snd (snd r))))
    (fst (two_builds (H := observing_imports)
            sample_cfg overflowing_cfg tt tt initial_world))
  = ((30000000000, 1%nat), (-9223372036709551616, 2%nat)).
Proof. reflexivity. Qed.

(** ** Label sanitization *)

Lemma alphabet_complete (c : ascii) : In c Metricutil.alphabet.
Proof.
  unfold Metricutil.alphabet. apply in_map_iff.
  exists (nat_of_ascii c). split.
  - apply ascii_nat_embedding.
  - apply in_seq. pose proof (nat_ascii_bounded c). lia.
Qed.

Section SanitizeFacts.

Variable replacement : ascii -> option ascii.
Variable valid_label : string -> bool.

Hypothesis stable : Metricutil.rule_is_stable replacement = true.

(** A character that the rule writes is kept by the rule. *)
Lemma sanitize_char_settled (c r : ascii) :
  Metricutil.sanitize_char replacement c = Some r ->
  Metricutil.sanitize_char replacement r = Some r.
Proof.
  intros Hc.
  pose proof (proj1 (forallb_forall _ _) stable c (alphabet_complete c))
    as Hs.
  unfold Metricutil.settled in Hs. rewrite Hc in Hs.
  destruct (Metricutil.sanitize_char replacement r) as [r'|];
    [|discriminate].
  apply Ascii.eqb_eq in Hs. congruence.
Qed.

(** Normalising a normalised text changes nothing. *)
Lemma normalize_fixed (name : string) :
  Metricutil.normalize replacement (Metricutil.normalize replacement name)
  = Metricutil.normalize replacement name.
Proof.
  induction name as [|c rest IH]; [reflexivity|]. simpl.
  destruct (Metricutil.sanitize_char replacement c) as [r|] eqn:Hc.
  - simpl. rewrite (sanitize_char_settled c r Hc), IH. reflexivity.
  - exact IH.
Qed.

Lemma SanitizeLabelName_ok (name label : string) :
  Metricutil.SanitizeLabelName replacement valid_label name = (label, None) ->
  label = Metricutil.normalize replacement name
  /\ valid_label label = true.
Proof.
  unfold Metricutil.SanitizeLabelName.
  destruct (valid_label (Metricutil.normalize replacement name)) eqn:Hv;
    [|discriminate].
  intros Heq. injection Heq as <-. split; [reflexivity|assumption].
Qed.

(** For a sanitization rule whose written characters are characters it
    keeps, sanitizing is idempotent on every name it accepts: the label
    it returns is accepted in turn and is returned unchanged.  The
    condition on the rule is needed, see [hyphen_rule_not_idempotent]. *)
Theorem SanitizeLabelName_idempotent (name label : string) :
  Metricutil.SanitizeLabelName replacement valid_label name = (label, None) ->
  Metricutil.SanitizeLabelName replacement valid_label label = (label, None).
Proof.
  intros Hname. apply SanitizeLabelName_ok in Hname as [-> Hvalid].
  unfold Metricutil.SanitizeLabelName.
  rewrite normalize_fixed, Hvalid. reflexivity.
Qed.

End SanitizeFacts.

Lemma SanitizeLabelName_idempotent_witness :
  Metricutil.rule_is_stable Metricutil.underscore_rule = true
  /\ Metricutil.SanitizeLabelName Metricutil.underscore_rule
       Metricutil.nonempty "My DB!" = ("My_DB"%string, None)
  /\ Metricutil.SanitizeLabelName Metricutil.underscore_rule
       Metricutil.nonempty "My_DB" = ("My_DB"%string, None).
Proof.
  assert (Hs : Metricutil.rule_is_stable Metricutil.underscore_rule = true)
    by reflexivity.
  assert (Hn : Metricutil.SanitizeLabelName Metricutil.underscore_rule
                 Metricutil.nonempty "My DB!" = ("My_DB"%string, None))
    by reflexivity.
  split; [exact Hs|]. split; [exact Hn|].
  exact (SanitizeLabelName_idempotent Metricutil.underscore_rule
           Metricutil.nonempty Hs "My DB!" "My_DB" Hn).
Defined.

(** A rule that writes a character it would not keep is not stable. *)
Example unstable_rule_detected :
  Metricutil.rule_is_stable
    (fun c => if Ascii.eqb c " " then Some "-"%char else None) = false.
Proof. reflexivity. Qed.

(** Such a rule also replaces and removes characters that are not
    alphanumeric, and sanitizing with it is not idempotent. *)
Example hyphen_rule_not_idempotent :
  Metricutil.SanitizeLabelName hyphen_rule Metricutil.nonempty "My DB!"
  = ("My-DB"%string, None)
  /\ Metricutil.SanitizeLabelName hyphen_rule Metricutil.nonempty "My-DB"
     = ("MyDB"%string, None).
Proof. split; reflexivity. Qed.

(** * Further properties of the code *)

(** ** Durations of the written policy *)

(** X1.  When every seconds-denominated field of the configuration is at
    most [max_seconds] = 9223372036 in absolute value, nothing
    overflows: each duration that [setDefaultTimeoutOptions] writes is
    the field times 10^9 nanoseconds. *)
Theorem policy_exact_when_seconds_fit (cfg : Cfg) (w : World) :
  seconds_fit cfg ->
  Timeout (policy_after cfg w) = DataProxyTimeout cfg * Time.Second
  /\ DialTimeout (policy_after cfg w) = DataProxyDialTimeout cfg * Time.Second
  /\ KeepAlive (policy_after cfg w) = DataProxyKeepAlive cfg * Time.Second
  /\ TLSHandshakeTimeout (policy_after cfg w)
     = DataProxyTLSHandshakeTimeout cfg * Time.Second
  /\ ExpectContinueTimeout (policy_after cfg w)
     = DataProxyExpectContinueTimeout cfg * Time.Second
  /\ IdleConnTimeout (policy_after cfg w)
     = DataProxyIdleConnTimeout cfg * Time.Second.
Proof.
  intros (H1 & H2 & H3 & H4 & H5 & H6).
  unfold policy_after. rewrite setDefaultTimeoutOptions_run. cbn.
  repeat split; apply seconds_exact; assumption.
Qed.

Lemma policy_exact_when_seconds_fit_witness :
  seconds_fit sample_cfg
  /\ Timeout (policy_after sample_cfg initial_world)
     = DataProxyTimeout sample_cfg * Time.Second
  /\ DialTimeout (policy_after sample_cfg initial_world)
     = DataProxyDialTimeout sample_cfg * Time.Second
  /\ KeepAlive (policy_after sample_cfg initial_world)
     = DataProxyKeepAlive sample_cfg * Time.Second
  /\ TLSHandshakeTimeout (policy_after sample_cfg initial_world)
     = DataProxyTLSHandshakeTimeout sample_cfg * Time.Second
  /\ ExpectContinueTimeout (policy_after sample_cfg initial_world)
     = DataProxyExpectContinueTimeout sample_cfg * Time.Second
  /\ IdleConnTimeout (policy_after sample_cfg initial_world)
     = DataProxyIdleConnTimeout sample_cfg * Time.Second.
Proof.
  assert (Hfit : seconds_fit sample_cfg).
  { unfold seconds_fit. rewrite max_seconds_value. simpl. lia. }
  split; [exact Hfit|].
  exact (policy_exact_when_seconds_fit sample_cfg initial_world Hfit).
Defined.

Lemma max_wrapped_seconds_value : max_wrapped_seconds = 18446744073.
Proof. reflexivity. Qed.

Lemma seconds_wraps_once (n : Z) :
  Time.max_seconds < n <= max_wrapped_seconds ->
  Time.seconds n = n * Time.Second - Int64.modulus.
Proof.
  rewrite max_seconds_value, max_wrapped_seconds_value. intros Hn.
  unfold Time.seconds, Int64.mul, Time.of_int.
  rewrite Second_nanoseconds.
  assert (Hh : Int64.half_modulus = 9223372036854775808) by reflexivity.
  assert (Hm : Int64.modulus = 18446744073709551616) by reflexivity.
  rewrite (wrap64_id n).
  - unfold Int64.wrap64. rewrite Hh, Hm.
    replace (n * 1000000000 + 9223372036854775808)
      with (n * 1000000000 - 9223372036854775808
            + 1 * 18446744073709551616) by lia.
    rewrite Z_mod_plus_full. rewrite Z.mod_small by lia. lia.
  - unfold Int64.in_range, Int64.min_signed, Int64.max_signed. lia.
Qed.

(** X2.  A request timeout configured above [max_seconds], up to
    18446744073 seconds, overflows the 64-bit product once: the duration
    written is the nanosecond count less 2^64, a negative number. *)
Theorem timeout_overflow_is_negative (cfg : Cfg) (w : World) :
  Time.max_seconds < DataProxyTimeout cfg <= max_wrapped_seconds ->
  Timeout (policy_after cfg w)
  = DataProxyTimeout cfg * Time.Second - Int64.modulus
  /\ Timeout (policy_after cfg w) < 0.
Proof.
  intros Hn. unfold policy_after. rewrite setDefaultTimeoutOptions_run. cbn.
  rewrite (seconds_wraps_once _ Hn).
  split; [reflexivity|].
  rewrite max_wrapped_seconds_value in Hn. rewrite Second_nanoseconds.
  assert (Hm : Int64.modulus = 18446744073709551616) by reflexivity.
  lia.
Qed.

Lemma timeout_overflow_is_negative_witness :
  Time.max_seconds < DataProxyTimeout overflowing_cfg <= max_wrapped_seconds
  /\ Timeout (policy_after overflowing_cfg initial_world)
     = DataProxyTimeout overflowing_cfg * Time.Second - Int64.modulus
  /\ Timeout (policy_after overflowing_cfg initial_world) < 0.
Proof.
  assert (Hn : Time.max_seconds < DataProxyTimeout overflowing_cfg
               <= max_wrapped_seconds).
  { rewrite max_seconds_value, max_wrapped_seconds_value. simpl. lia. }
  split; [exact Hn|].
  exact (timeout_overflow_is_negative overflowing_cfg initial_world Hn).
Defined.

(** ** The connection tagger on the store *)

Lemma tagged_run (name : string) (p : TransportPtr) (st : Store)
    (t : Http.Transport) :
  st !! p = Some t ->
  newConntrackRoundTripper name p st =
  Some (p, <[p := Http.set_DialContext
                    (tagged_dial name (Http.DialContext t)) t]> st).
Proof. apply newConntrackRoundTripper_run. Qed.

Lemma same_but_dial_set (d : option Http.DialContextFunc)
    (t : Http.Transport) :
  same_but_dial t (Http.set_DialContext d t).
Proof. unfold same_but_dial. destruct t. reflexivity. Qed.

Lemma same_but_dial_refl (t : Http.Transport) : same_but_dial t t.
Proof. unfold same_but_dial. destruct t. reflexivity. Qed.

(** X3.  The tagger panics exactly on a pointer to no transport; when it
    returns, it returns the pointer it was given and the store has the
    same addresses as before: nothing is allocated or freed. *)
Theorem newConntrackRoundTripper_pointer_safety (name : string)
    (p : TransportPtr) (st : Store) :
  (newConntrackRoundTripper name p st = None <-> st !! p = None)
  /\ (forall q st',
        newConntrackRoundTripper name p st = Some (q, st') ->
        q = p /\ dom st' = dom st).
Proof.
  destruct (st !! p) as [t|] eqn:Hp.
  - rewrite (tagged_run name p st t Hp). split.
    + split; discriminate.
    + intros q st' Heq. injection Heq as <- <-.
      split; [reflexivity|].
      apply dom_insert_lookup_L. rewrite Hp. eauto.
  - rewrite (newConntrackRoundTripper_panics name p st Hp). split.
    + split; reflexivity.
    + intros q st'. discriminate.
Qed.

(** X4.  Tagging is not idempotent.  Tagging a transport that is already
    tagged wraps the first conntrack dial function in a second one: the
    outer one carries the second name and has the inner one, with the
    first name and the original dial function, as the function it dials
    with.  Every other field is still that of the original transport. *)
Theorem newConntrackRoundTripper_twice (n1 n2 : string) (p : TransportPtr)
    (st : Store) (t : Http.Transport) :
  st !! p = Some t ->
  match newConntrackRoundTripper n1 p st with
  | Some (q, st1) => newConntrackRoundTripper n2 q st1
  | None => None
  end
  = Some (p, <[p := Http.set_DialContext
                      (tagged_dial n2
                         (tagged_dial n1 (Http.DialContext t))) t]> st).
Proof.
  intros Hp. rewrite (tagged_run n1 p st t Hp).
  rewrite (tagged_run n2 p _ _ (lookup_insert_eq st p _)).
  rewrite insert_insert_eq. reflexivity.
Qed.

Lemma newConntrackRoundTripper_twice_witness :
  sample_store !! 7%N = Some sample_transport
  /\ match newConntrackRoundTripper "a" 7%N sample_store with
     | Some (q, st1) => newConntrackRoundTripper "b" q st1
     | None => None
     end
     = Some (7%N,
             <[7%N := Http.set_DialContext
                        (tagged_dial "b"
                           (tagged_dial "a"
                              (Http.DialContext sample_transport)))
                        sample_transport]> sample_store).
Proof.
  assert (Hp : sample_store !! 7%N = Some sample_transport) by reflexivity.
  split; [exact Hp|].
  exact (newConntrackRoundTripper_twice "a" "b" 7%N sample_store
           sample_transport Hp).
Defined.

(** ** The logging middleware as a wrapper *)

(** What the middleware returns is the next round tripper or a logger
    directly around it. *)
Lemma httpLogger_shape (opts : Options) (next : RoundTripper) :
  CreateMiddleware httpLoggerMiddleware opts next = next
  \/ exists hl,
       CreateMiddleware httpLoggerMiddleware opts next = LoggerRoundTripper hl
       /\ proxied hl = next.
Proof.
  destruct (Labels opts !! "datasource_name"%string) as [name|] eqn:Hname.
  - destruct (flag_cases opts) as [Hon|Hoff].
    + right. eexists. split; [apply (httpLogger_active _ _ _ Hname Hon)|].
      reflexivity.
    + left. apply httpLogger_flag_off. assumption.
  - left. apply httpLogger_no_name. assumption.
Qed.

(** X5.  The logging middleware never replaces or drops the transport
    under it.  Whatever the labels, its result is [next] itself, or the
    logger for the value of [datasource_name] directly around [next],
    always enabled and with the path of [har_log_path]; so the round
    tripper at the bottom of the result is the one at the bottom of
    [next], and the result is at most one layer deeper than [next]. *)
Theorem httpLogger_keeps_innermost (opts : Options) (next : RoundTripper) :
  (CreateMiddleware httpLoggerMiddleware opts next = next
   \/ exists name,
        Labels opts !! "datasource_name"%string = Some name
        /\ CreateMiddleware httpLoggerMiddleware opts next =
           LoggerRoundTripper
             {| pluginID := name; proxied := next;
                enabledCheck := Some (fun _ => true);
                harPath := Labels opts !! "har_log_path"%string |})
  /\ innermost (CreateMiddleware httpLoggerMiddleware opts next)
     = innermost next
  /\ (depth next
      <= depth (CreateMiddleware httpLoggerMiddleware opts next)
      <= S (depth next))%nat.
Proof.
  destruct (Labels opts !! "datasource_name"%string) as [name|] eqn:Hname.
  - destruct (flag_cases opts) as [Hon|Hoff].
    + rewrite (httpLogger_active opts next name Hname Hon).
      split; [right; exists name; split; reflexivity|].
      simpl. split; [reflexivity|lia].
    + rewrite (httpLogger_flag_off opts next Hoff).
      split; [left; reflexivity|]. split; [reflexivity|lia].
  - rewrite (httpLogger_no_name opts next Hname).
    split; [left; reflexivity|]. split; [reflexivity|lia].
Qed.

(** X6.  The middleware reads three labels and no other: two label maps
    that agree on [datasource_name], [har_log_enabled] and
    [har_log_path] give the same result on every round tripper, whatever
    other labels they hold. *)
Theorem httpLogger_reads_three_labels (o1 o2 : Options)
    (next : RoundTripper) :
  same_har_labels o1 o2 ->
  CreateMiddleware httpLoggerMiddleware o1 next
  = CreateMiddleware httpLoggerMiddleware o2 next.
Proof.
  intros (Hname & Hflag & Hpath). simpl. unfold index_ok.
  rewrite Hname, Hflag, Hpath. reflexivity.
Qed.

Lemma httpLogger_reads_three_labels_witness :
  same_har_labels har_options_with_team har_options
  /\ CreateMiddleware httpLoggerMiddleware har_options_with_team
       (BaseRoundTripper 0)
     = CreateMiddleware httpLoggerMiddleware har_options (BaseRoundTripper 0).
Proof.
  assert (Hsame : same_har_labels har_options_with_team har_options).
  { unfold same_har_labels. repeat split; reflexivity. }
  split; [exact Hsame|].
  exact (httpLogger_reads_three_labels har_options_with_team har_options
           (BaseRoundTripper 0) Hsame).
Defined.

(** X7.  Whether the middleware activates is decided by the options
    alone: if it activates around one round tripper it activates around
    every other one. *)
Theorem httpLogger_activation_ignores_next (opts : Options)
    (n1 n2 : RoundTripper) :
  activates opts n1 <-> activates opts n2.
Proof.
  split; intros Hact; apply activates_inv in Hact as [Hname Hflag];
    apply activates_intro; assumption.
Qed.

(** ** The transport hook on the store *)

Section HookFacts.

Context `{Imports}.

(** The two ways through the hook: it returns at once, or it hands the
    sanitized label to the tagger. *)
Lemma ConfigureTransport_cases (opts : Options) (p : TransportPtr)
    (st : Store) :
  (New_ConfigureTransport opts p st = Some st
   /\ forall name, Labels opts !! "datasource_name"%string = Some name ->
                   snd (SanitizeLabelName name) <> None)
  \/ (exists name label,
        Labels opts !! "datasource_name"%string = Some name
        /\ SanitizeLabelName name = (label, None)
        /\ New_ConfigureTransport opts p st
           = snd <$> newConntrackRoundTripper label p st).
Proof.
  destruct (Labels opts !! "datasource_name"%string) as [name|] eqn:Hname.
  - destruct (SanitizeLabelName name) as [label [e|]] eqn:Hlabel.
    + left. split.
      * unfold New_ConfigureTransport.
        rewrite (index_ok_Some _ _ _ Hname). simpl. rewrite Hlabel.
        rewrite bool_decide_eq_true_2 by discriminate. reflexivity.
      * intros name' Heq. injection Heq as <-. rewrite Hlabel. discriminate.
    + right. exists name, label.
      split; [reflexivity|]. split; [assumption|].
      apply (ConfigureTransport_tags opts p st name label); assumption.
  - left. split.
    + unfold New_ConfigureTransport.
      rewrite (index_ok_None _ _ Hname). reflexivity.
    + intros name'. discriminate.
Qed.

(** X8.  The hook panics in one situation only: the label
    [datasource_name] is present, the sanitizer accepts it, and the
    transport pointer is nil or dangling.  With the label absent or
    rejected a nil transport is never touched. *)
Theorem ConfigureTransport_panics_iff (opts : Options) (p : TransportPtr)
    (st : Store) :
  New_ConfigureTransport opts p st = None
  <-> st !! p = None
      /\ exists name, Labels opts !! "datasource_name"%string = Some name
                      /\ snd (SanitizeLabelName name) = None.
Proof.
  destruct (ConfigureTransport_cases opts p st)
    as [[Hnoop Hrej] | (name & label & Hname & Hlabel & Hrun)].
  - rewrite Hnoop. split; [discriminate|].
    intros [_ (name & Hname & Hok)]. exfalso.
    exact (Hrej name Hname Hok).
  - rewrite Hrun. destruct (st !! p) as [t|] eqn:Hp.
    + rewrite (tagged_run label p st t Hp). simpl.
      split; [discriminate|]. intros [Hnone _]. discriminate.
    + rewrite (newConntrackRoundTripper_panics label p st Hp). simpl.
      split; [|reflexivity]. intros _. split; [reflexivity|].
      exists name. split; [assumption|]. rewrite Hlabel. reflexivity.
Qed.

(** X9.  Whenever the hook returns, the store has the same addresses as
    before, every transport other than the one passed in is untouched,
    and every transport, the one passed in included, differs from what
    it was at most in its dial function. *)
Theorem ConfigureTransport_frame (opts : Options) (p : TransportPtr)
    (st st' : Store) :
  New_ConfigureTransport opts p st = Some st' ->
  dom st' = dom st
  /\ (forall q, q <> p -> st' !! q = st !! q)
  /\ (forall q t, st !! q = Some t ->
                  exists t', st' !! q = Some t' /\ same_but_dial t t').
Proof.
  destruct (ConfigureTransport_cases opts p st)
    as [[Hnoop _] | (name & label & _ & _ & Hrun)].
  - rewrite Hnoop. intros Heq. injection Heq as <-.
    repeat split. intros q t Hq. exists t.
    split; [assumption|apply same_but_dial_refl].
  - rewrite Hrun. destruct (st !! p) as [t0|] eqn:Hp.
    + rewrite (tagged_run label p st t0 Hp). simpl.
      intros Heq. injection Heq as <-. split; [|split].
      * apply dom_insert_lookup_L. rewrite Hp. eauto.
      * intros q Hq. apply lookup_insert_ne. congruence.
      * intros q t Hq. destruct (decide (q = p)) as [Heq|Hne].
        -- subst q. assert (Ht : Some t = Some t0) by (rewrite <- Hq; exact Hp).
           injection Ht as ->.
           eexists. split; [apply lookup_insert_eq|].
           apply same_but_dial_set.
        -- exists t. rewrite lookup_insert_ne by congruence.
           split; [assumption|apply same_but_dial_refl].
    + rewrite (newConntrackRoundTripper_panics label p st Hp). simpl.
      discriminate.
Qed.

(** X10.  With the label present, accepted by the sanitizer, and a
    transport at the pointer, the hook tags that transport under the
    sanitized label, not under the raw value of [datasource_name], and
    keeps the transport's previous dial function as the one to dial
    with. *)
Theorem ConfigureTransport_tags_with_sanitized_label (opts : Options)
    (p : TransportPtr) (st : Store) (t : Http.Transport)
    (name label : string) :
  Labels opts !! "datasource_name"%string = Some name ->
  SanitizeLabelName name = (label, None) ->
  st !! p = Some t ->
  New_ConfigureTransport opts p st =
  Some (<[p := Http.set_DialContext
                 (tagged_dial label (Http.DialContext t)) t]> st).
Proof.
  intros Hname Hlabel Hp.
  rewrite (ConfigureTransport_tags opts p st name label Hname Hlabel).
  rewrite (tagged_run label p st t Hp). reflexivity.
Qed.

(** X11.  Building twice: the provider function of the second call of
    [New] is invoked with the second call's middlewares, in a state
    whose default policy is that of the second configuration, whatever
    the first call and its provider function left behind. *)
Theorem New_twice_last_cfg_wins (cfg1 cfg2 : Cfg) (tr1 tr2 : Tracer)
    (w : World) :
  (New cfg1 tr1 ;;; New cfg2 tr2)%run w =
  newProviderFunc
    {| Middlewares := New_middlewares cfg2 tr2;
       ConfigureTransport := New_ConfigureTransport |}
    (snd (setDefaultTimeoutOptions cfg2 (snd (New cfg1 tr1 w))))
  /\ DefaultTimeoutOptions
       (snd (setDefaultTimeoutOptions cfg2 (snd (New cfg1 tr1 w))))
     = policy_after cfg2 w.
Proof.
  split.
  - unfold bind at 1. destruct (New cfg1 tr1 w) as [p1 w1]. apply New_run.
  - unfold policy_after. rewrite !setDefaultTimeoutOptions_run. reflexivity.
Qed.

End HookFacts.

Lemma ConfigureTransport_frame_witness :
  New_ConfigureTransport (H := recording_imports) har_options 7%N sample_store
  = Some tagged_store
  /\ dom tagged_store = dom sample_store
  /\ (forall q, q <> 7%N -> tagged_store !! q = sample_store !! q)
  /\ (forall q t, sample_store !! q = Some t ->
                  exists t', tagged_store !! q = Some t'
                             /\ same_but_dial t t').
Proof.
  assert (Hrun : New_ConfigureTransport (H := recording_imports)
                   har_options 7%N sample_store = Some tagged_store)
    by reflexivity.
  split; [exact Hrun|].
  exact (ConfigureTransport_frame (H := recording_imports)
           har_options 7%N sample_store tagged_store Hrun).
Defined.

Lemma ConfigureTransport_tags_with_sanitized_label_witness :
  Labels har_options !! "datasource_name"%string = Some "My DB!"%string
  /\ SanitizeLabelName (Imports := recording_imports) "My DB!"
     = ("My_DB"%string, None)
  /\ sample_store !! 7%N = Some sample_transport
  /\ New_ConfigureTransport (H := recording_imports)
       har_options 7%N sample_store
     = Some (<[7%N := Http.set_DialContext
                        (tagged_dial "My_DB"
                           (Http.DialContext sample_transport))
                        sample_transport]> sample_store).
Proof.
  assert (Hname : Labels har_options !! "datasource_name"%string
                  = Some "My DB!"%string) by reflexivity.
  assert (Hlabel : SanitizeLabelName (Imports := recording_imports) "My DB!"
                   = ("My_DB"%string, None)) by reflexivity.
  assert (Hp : sample_store !! 7%N = Some sample_transport) by reflexivity.
  split; [exact Hname|]. split; [exact Hlabel|]. split; [exact Hp|].
  exact (ConfigureTransport_tags_with_sanitized_label
           (H := recording_imports) har_options 7%N sample_store
           sample_transport "My DB!" "My_DB" Hname Hlabel Hp).
Defined.
